(** * requester-utils: request-option builder, requester factory and
      preset constructors

    A shallow embedding of [packages/requester-utils] (the TypeScript
    module exporting [formatQuery], [defaultOptionsHandler],
    [createRequesterFn] and [presetResourceArguments]) together with the
    properties its specification states about it.

    Conventions of the embedding.
    - A JavaScript object used as a string-keyed dictionary whose
      enumeration order is not observed (header objects, configuration
      objects, the requester, the resource mapping) is a [gmap string _].
      Property names are ordinary names: the accessor [__proto__] is not
      modelled.
    - A JavaScript object whose enumeration order is observed (the
      [authHeaders] mapping, whose first entry is consulted; bodies and
      search parameters, which are serialised) is the list of its own
      enumerable entries in [Object.entries] order.
    - Header objects are mutated in place by the source, so they live in a
      heap and are named by locations; everything else is a value.
    - A promise that resolves or rejects is an [outcome]; an async function
      is a state transformer returning an [outcome]. *)

From Stdlib Require Import Ascii String.
From stdpp Require Import base option list gmap strings pretty.

Open Scope string_scope.

Local Set Warnings "-register-all".

(** ** JavaScript values and string primitives *)

Module Js.

(** An integer is safe when its magnitude is at most 2^53 - 1. *)
Definition safe (n : Z) : bool := (Z.abs n <=? 9007199254740991)%Z.

(** A JavaScript number: an integer in the safe range (negative zero is
    the integer 0), [NaN], or any other number (a fraction, an integer
    beyond the safe range, an infinity), which is not zero and is given by
    its string form. *)
Inductive number : Type :=
| Int (n : Z) (Hsafe : Is_true (safe n))
| NaN
| Float (text : string).

(** The fragment of JavaScript values that bodies and search parameters
    range over: strings, numbers, arrays and plain objects.
    An object is the list of its entries in enumeration order. *)
Inductive value : Type :=
| Str (s : string)
| Num (n : number)
| Arr (elems : list value)
| Obj (fields : list (string * value)).

Definition is_upper (c : ascii) : bool :=
  let n := N_of_ascii c in ((65 <=? n) && (n <=? 90))%N.

Definition is_lower (c : ascii) : bool :=
  let n := N_of_ascii c in ((97 <=? n) && (n <=? 122))%N.

Definition is_digit (c : ascii) : bool :=
  let n := N_of_ascii c in ((48 <=? n) && (n <=? 57))%N.

Definition to_upper (c : ascii) : ascii :=
  if is_lower c then ascii_of_N (N_of_ascii c - 32) else c.

Definition to_lower (c : ascii) : ascii :=
  if is_upper c then ascii_of_N (N_of_ascii c + 32) else c.

(** [String.prototype.toUpperCase] on ASCII text. *)
Fixpoint toUpperCase (s : string) : string :=
  match s with
  | "" => ""
  | String c t => String (to_upper c) (toUpperCase t)
  end.


(** [Array.prototype.join]. *)
Fixpoint join (sep : string) (l : list string) : string :=
  match l with
  | [] => ""
  | [x] => x
  | x :: r => x ++ sep ++ join sep r
  end.

(** Truthiness of a string: every string but the empty one. *)
Definition truthy_string (s : string) : bool :=
  match s with
  | "" => false
  | _ => true
  end.


(** Truthiness of a number: every number but zero and [NaN]. *)
Definition truthy_number (x : number) : bool :=
  match x with
  | Int n _ => negb (n =? 0)%Z
  | NaN => false
  | Float _ => true
  end.

(** The string form of a number: for a safe integer its decimal numeral,
    with a leading minus sign when negative. *)
Definition number_to_string (x : number) : string :=
  match x with
  | Int n _ => pretty n
  | NaN => "NaN"
  | Float text => text
  end.



End Js.

(** ** The library [xcase] *)

Module Xcase.
Import Js.

(** Every upper-case letter of [s] replaced by an underscore followed by
    its lower-case form. *)
Fixpoint separate_words (s : string) : string :=
  match s with
  | "" => ""
  | String c t =>
      if is_upper c
      then String "_" (String (to_lower c) (separate_words t))
      else String c (separate_words t)
  end.

(** The name starts with a lower-case letter, as a camelCase name does. *)
Definition starts_lower (s : string) : bool :=
  match s with
  | "" => false
  | String c _ => is_lower c
  end.

(** Modelled from the spec: [xcase] is an imported package of which only
    the type declaration is in the repository.  A camelCase name becomes
    snake_case: every upper-case letter is replaced by an underscore
    followed by its lower-case form.  A name that does not start with a
    lower-case letter is not camelCase and is left as it is. *)
Definition decamelize (s : string) : string :=
  if starts_lower s then separate_words s else s.

(** Modelled from the spec: [decamelizeKeys] of [xcase] transforms every
    key of the mapping, nested mappings included (also those inside
    arrays), and leaves the values alone.  Mappings in which two keys
    collide once transformed are outside the model. *)
Fixpoint decamelizeKeys (v : value) : value :=
  match v with
  | Str s => Str s
  | Num n => Num n
  | Arr elems => Arr (map decamelizeKeys elems)
  | Obj fields =>
      Obj (map (fun kv => (decamelize (fst kv), decamelizeKeys (snd kv))) fields)
  end.

End Xcase.

(** ** The library [qs] *)

Module Qs.
Import Js.

Definition hex_digit (n : N) : ascii :=
  if (n <? 10)%N then ascii_of_N (48 + n) else ascii_of_N (55 + n).

(** Characters that URL-encoding leaves as they are. *)
Definition unreserved (c : ascii) : bool :=
  is_upper c || is_lower c || is_digit c
  || bool_decide (c = "-"%char) || bool_decide (c = "_"%char)
  || bool_decide (c = "."%char) || bool_decide (c = "~"%char).

Definition encode_char (c : ascii) : string :=
  if unreserved c then String c ""
  else
    let n := N_of_ascii c in
    String "%" (String (hex_digit (n / 16)) (String (hex_digit (n mod 16)) "")).

(** Modelled from the spec: the query string is URL-encoded; [qs] is an
    imported package absent from the repository.  Percent-encoding of
    every byte that is not unreserved. *)
Fixpoint encode (s : string) : string :=
  match s with
  | "" => ""
  | String c t => encode_char c ++ encode t
  end.


(** Modelled from the spec: the bracketed paths of [qs], an imported
    package absent from the repository.  The [(path, leaf)] pairs under a
    value that sits at [prefix]: an array adds an empty pair of brackets
    to the path of each of its elements, an object adds the bracketed key
    to the path of each of its fields. *)
Fixpoint pairs (prefix : string) (v : value) : list (string * string) :=
  match v with
  | Str s => [(prefix, s)]
  | Num n => [(prefix, number_to_string n)]
  | Arr elems => flat_map (pairs (prefix ++ "[]")) elems
  | Obj fields =>
      flat_map (fun kv => pairs (prefix ++ "[" ++ fst kv ++ "]") (snd kv)) fields
  end.

(** Modelled from the spec: the paths of [qs] at the top level.  The
    pairs of a top-level mapping: each field starts a path at its own
    key. *)
Definition top_pairs (v : value) : list (string * string) :=
  match v with
  | Obj fields => flat_map (fun kv => pairs (fst kv) (snd kv)) fields
  | _ => []
  end.

(** Modelled from the spec: one [path=value] segment of the URL-encoded
    query string of [qs]: the path, brackets included, and the value are
    both URL-encoded. *)
Definition segment (p : string * string) : string :=
  encode (fst p) ++ "=" ++ encode (snd p).

(** Modelled from the spec: [stringify] of [qs] with
    [arrayFormat: 'brackets'], an imported package absent from the
    repository.  Sequence-valued fields are written with bracket
    notation, nested mappings expand to bracketed paths, the text is
    URL-encoded, and segments are joined by [&]. *)
Definition stringify (v : value) : string :=
  join "&" (map segment (top_pairs v)).



End Qs.

(** ** The built-in [JSON] object *)

Module Json.
Import Js.

Definition dquote : ascii := ascii_of_N 34.
Definition backslash : ascii := ascii_of_N 92.

Definition escaped (c : ascii) : string := String backslash (String c "").

Definition escape_char (c : ascii) : string :=
  let n := N_of_ascii c in
  if (n =? 34)%N then escaped dquote
  else if (n =? 92)%N then escaped backslash
  else if (n =? 8)%N then escaped "b"
  else if (n =? 9)%N then escaped "t"
  else if (n =? 10)%N then escaped "n"
  else if (n =? 12)%N then escaped "f"
  else if (n =? 13)%N then escaped "r"
  else if (n <? 32)%N
       then escaped "u" ++ "00"
              ++ String (to_lower (Qs.hex_digit (n / 16)))
                   (String (to_lower (Qs.hex_digit (n mod 16))) "")
  else String c "".

Fixpoint escape (s : string) : string :=
  match s with
  | "" => ""
  | String c t => escape_char c ++ escape t
  end.

Definition quote (s : string) : string :=
  String dquote (escape s ++ String dquote "").

(** [JSON.stringify] on the modelled fragment of values, without
    indentation. *)
Fixpoint stringify (v : value) : string :=
  match v with
  | Str s => quote s
  | Num (Int n _) => pretty n
  | Num NaN => "null"
  | Num (Float text) =>
      if bool_decide (text = "Infinity") || bool_decide (text = "-Infinity")
      then "null" else text
  | Arr elems => "[" ++ join "," (map stringify elems) ++ "]"
  | Obj fields =>
      "{" ++ join "," (map (fun kv => quote (fst kv) ++ ":" ++ stringify (snd kv)) fields)
          ++ "}"
  end.

End Json.


(** ** Promises, host objects and the heap of header objects *)

(** A settled promise: resolved with a value or rejected with a thrown
    value. *)
Inductive outcome (E A : Type) : Type :=
| Resolved (a : A)
| Rejected (e : E).

Arguments Resolved {E A} a.
Arguments Rejected {E A} e.

(** Header objects are named by locations. *)
Definition loc : Type := positive.

(** Host objects are opaque references; two of them are the same object
    exactly when the references are equal. *)
Inductive FormData : Type := FormDataRef (id : positive).
Inductive AbortSignal : Type := AbortSignalRef (id : positive).
Inductive Agent : Type := AgentRef (id : positive).

(** [body?: FormData | Record<string, unknown>] *)
Inductive Body : Type :=
| FormBody (form : FormData)
| ObjectBody (fields : list (string * Js.value)).

(** [sudo?: string | number] *)
Inductive Sudo : Type :=
| SudoString (s : string)
| SudoNumber (n : Js.number).

(** Truthiness of a sudo value, as tested by [if (sudo)]: a non-empty
    string or a number other than zero and [NaN]. *)
Definition truthy_sudo (x : Sudo) : bool :=
  match x with
  | SudoString s => Js.truthy_string s
  | SudoNumber n => Js.truthy_number n
  end.

(** The template literal [`${sudo}`]. *)
Definition sudo_to_string (x : Sudo) : string :=
  match x with
  | SudoString s => s
  | SudoNumber n => Js.number_to_string n
  end.

(** [body?: string | FormData] of [RequestOptions] *)
Inductive RequestBody : Type :=
| FormRequestBody (form : FormData)
| StringBody (s : string).

(** [DefaultRequestOptions]: the options of one call. *)
Record DefaultRequestOptions : Type := {
  call_body : option Body;
  call_searchParams : option (list (string * Js.value));
  call_sudo : option Sudo;
  call_method : option string;
  call_asStream : option bool;
  call_signal : option AbortSignal
}.

(** The object literal [{}] as call options. *)
Definition no_options : DefaultRequestOptions :=
  {| call_body := None; call_searchParams := None; call_sudo := None;
     call_method := None; call_asStream := None; call_signal := None |}.

(** [RequestOptions]: what the transport receives.  [headers] is a
    reference to a header object of the heap. *)
Record RequestOptions : Type := {
  headers : option loc;
  timeout : option Z;
  method : option string;
  searchParams : option string;
  prefixUrl : option string;
  body : option RequestBody;
  asStream : option bool;
  signal : option AbortSignal;
  agent : option Agent
}.

(** The assignment [options.body = b]. *)
Definition set_body (options : RequestOptions) (b : RequestBody) : RequestOptions :=
  {| headers := headers options; timeout := timeout options;
     method := method options; searchParams := searchParams options;
     prefixUrl := prefixUrl options; body := Some b;
     asStream := asStream options; signal := signal options;
     agent := agent options |}.

(** The assignment [options.searchParams = q]. *)
Definition set_searchParams (options : RequestOptions) (q : string) : RequestOptions :=
  {| headers := headers options; timeout := timeout options;
     method := method options; searchParams := Some q;
     prefixUrl := prefixUrl options; body := body options;
     asStream := asStream options; signal := signal options;
     agent := agent options |}.

(** The assignment [options.headers = l]. *)
Definition set_headers (options : RequestOptions) (l : loc) : RequestOptions :=
  {| headers := Some l; timeout := timeout options;
     method := method options; searchParams := searchParams options;
     prefixUrl := prefixUrl options; body := body options;
     asStream := asStream options; signal := signal options;
     agent := agent options |}.

(** The object literal [{ ...options }]: a new object with the same
    fields; the header object it refers to is shared. *)
Definition copy_options (options : RequestOptions) : RequestOptions :=
  {| headers := headers options; timeout := timeout options;
     method := method options; searchParams := searchParams options;
     prefixUrl := prefixUrl options; body := body options;
     asStream := asStream options; signal := signal options;
     agent := agent options |}.

(** The object literal [{ ...options, method: m }]; spreading [undefined]
    contributes nothing. *)
Definition with_method (options : option DefaultRequestOptions) (m : string)
  : DefaultRequestOptions :=
  let o := default no_options options in
  {| call_body := call_body o; call_searchParams := call_searchParams o;
     call_sudo := call_sudo o; call_method := Some m;
     call_asStream := call_asStream o; call_signal := call_signal o |}.

(** ** The request-option builder and the requester factory *)

Section requester.

(** The state of the external collaborators (whatever the injected
    functions read and write), the values they throw, and the transport's
    formatted response. *)
Variable World : Type.
Variable Error : Type.
Variable Response : Type.

(** The imported library functions: [decamelizeKeys] of [xcase],
    [stringify] of [qs] under [{ arrayFormat: 'brackets' }], and the
    built-in [JSON.stringify]. *)
Variable decamelizeKeys : Js.value -> Js.value.
Variable stringify : Js.value -> string.
Variable JSON_stringify : Js.value -> string.

(** The heap of header objects next to the collaborators' state. *)
Record state : Type := State {
  heap : gmap loc (gmap string string);
  world : World
}.

(** The body of an async function: it runs on the state and settles. *)
Definition Async (A : Type) : Type := state -> outcome Error A * state.

Definition ret {A : Type} (a : A) : Async A :=
  fun s => (Resolved a, s).

(** Sequencing, as [await] does it: a rejection ends the body and becomes
    the rejection of the whole. *)
Definition bind {A B : Type} (m : Async A) (k : A -> Async B) : Async B :=
  fun s =>
    match m s with
    | (Resolved a, s') => k a s'
    | (Rejected e, s') => (Rejected e, s')
    end.

Notation "x <- m ;; k" := (bind m (fun x => k))
  (at level 100, m at next level, right associativity).
Notation "m ;; k" := (bind m (fun _ => k))
  (at level 100, right associativity).

(** [() => Promise<string>]: an injected function of no argument; it acts
    on the collaborators' state only. *)
Definition AuthHeaderFn : Type := World -> outcome Error string * World.

(** [await fn()] *)
Definition await (fn : AuthHeaderFn) : Async string :=
  fun s =>
    let (o, w) := fn (world s) in
    (o, {| heap := heap s; world := w |}).

(** The object literal [{ ...source }] for a header object: a fresh
    object holding a copy of the entries of [source]. *)
Definition spread (source : loc) : Async loc :=
  fun s =>
    let l := fresh (dom (heap s)) in
    (Resolved l,
     {| heap := <[l := default ∅ (heap s !! source)]> (heap s);
        world := world s |}).

(** The assignment [object[key] = value] on the header object at [l]. *)
Definition assign (l : loc) (key value : string) : Async unit :=
  fun s =>
    (Resolved tt,
     {| heap := alter (insert key value) l (heap s); world := world s |}).

(** [ResourceOptions]: [headers] refers to a header object of the heap,
    [authHeaders] lists its entries in enumeration order.  The rate-limit
    fields are read by neither function and are left out. *)
Record ResourceOptions : Type := {
  ro_headers : loc;
  ro_authHeaders : list (string * AuthHeaderFn);
  ro_url : string;
  ro_agent : option Agent
}.

Definition OptionsHandlerFn : Type :=
  ResourceOptions -> RequestOptions -> Async RequestOptions.

Definition RequestHandlerFn : Type :=
  string -> RequestOptions -> Async Response.

(** [formatQuery(params = {})] *)
Definition formatQuery (params : option (list (string * Js.value))) : string :=
  let decamelized := decamelizeKeys (Js.Obj (default [] params)) in
  stringify decamelized.

(** The two statements guarded by [if (sudo)]. *)
Definition apply_sudo (l : loc) (sudo : option Sudo) : Async unit :=
  match sudo with
  | Some x => if truthy_sudo x then assign l "sudo" (sudo_to_string x) else ret tt
  | None => ret tt
  end.

(** The statement guarded by [if (body)]; an object is always truthy. *)
Definition apply_body (l : loc) (defaultOptions : RequestOptions) (b : option Body)
  : Async RequestOptions :=
  match b with
  | Some (FormBody form) => ret (set_body defaultOptions (FormRequestBody form))
  | Some (ObjectBody fields) =>
      let defaultOptions :=
        set_body defaultOptions
          (StringBody (JSON_stringify (decamelizeKeys (Js.Obj fields)))) in
      assign l "content-type" "application/json" ;;
      ret defaultOptions
  | None => ret defaultOptions
  end.

(** The statement guarded by [Object.keys(authHeaders).length > 0]. *)
Definition apply_auth (l : loc) (authHeaders : list (string * AuthHeaderFn))
  : Async unit :=
  match authHeaders with
  | (authHeaderKey, authHeaderFn) :: _ =>
      v <- await authHeaderFn ;;
      assign l authHeaderKey v
  | [] => ret tt
  end.

(** [defaultOptionsHandler(resourceOptions, callOptions = {})] *)
Definition defaultOptionsHandler
    (resourceOptions : ResourceOptions)
    (callOptions : option DefaultRequestOptions) : Async RequestOptions :=
  let o := default no_options callOptions in
  let defaultOptions :=
    {| headers := None; timeout := None;
       method := Some (default "GET" (call_method o));
       searchParams := None;
       prefixUrl := Some (ro_url resourceOptions);
       body := None;
       asStream := Some (default false (call_asStream o));
       signal := call_signal o;
       agent := ro_agent resourceOptions |} in
  l <- spread (ro_headers resourceOptions) ;;
  let defaultOptions := set_headers defaultOptions l in
  apply_sudo l (call_sudo o) ;;
  defaultOptions <- apply_body l defaultOptions (call_body o) ;;
  apply_auth l (ro_authHeaders resourceOptions) ;;
  let q := formatQuery (call_searchParams o) in
  ret (if Js.truthy_string q then set_searchParams defaultOptions q
       else defaultOptions).

(** One method of the requester. *)
Definition VerbFn : Type :=
  string -> option DefaultRequestOptions -> Async Response.

Definition methods : list string := ["get"; "post"; "put"; "patch"; "delete"].

(** The async arrow function stored under [requester[m]]. *)
Definition verb (optionsHandler : OptionsHandlerFn)
    (requestHandler : RequestHandlerFn) (serviceOptions : ResourceOptions)
    (m : string) : VerbFn :=
  fun endpoint options =>
    defaultRequestOptions <-
      defaultOptionsHandler serviceOptions
        (Some (with_method options (Js.toUpperCase m))) ;;
    requestOptions <- optionsHandler serviceOptions defaultRequestOptions ;;
    requestHandler endpoint (copy_options requestOptions).

(** [createRequesterFn(optionsHandler, requestHandler)]: the requester is
    the object filled by the [forEach] over [methods]. *)
Definition createRequesterFn (optionsHandler : OptionsHandlerFn)
    (requestHandler : RequestHandlerFn)
  : ResourceOptions -> gmap string VerbFn :=
  fun serviceOptions =>
    foldl (fun requester m =>
             <[m := verb optionsHandler requestHandler serviceOptions m]> requester)
          ∅ methods.

(** The options handler that hands its argument back. *)
Definition identityOptionsHandler : OptionsHandlerFn :=
  fun _ requestOptions => ret requestOptions.

(** The header object that the [headers] field of [options] refers to. *)
Definition headers_of (s : state) (options : RequestOptions) : gmap string string :=
  default ∅ (l ← headers options; heap s !! l).

(** The entries of the fresh header object once the statements before the
    auth step have run: the copied entries, then [sudo], then
    [content-type]. *)
Definition static_headers (s : state) (resourceOptions : ResourceOptions)
    (o : DefaultRequestOptions) : gmap string string :=
  let copied := default ∅ (heap s !! ro_headers resourceOptions) in
  let with_sudo :=
    match call_sudo o with
    | Some x => if truthy_sudo x then <["sudo" := sudo_to_string x]> copied else copied
    | None => copied
    end in
  match call_body o with
  | Some (ObjectBody _) => <["content-type" := "application/json"]> with_sudo
  | _ => with_sudo
  end.

(** The record [defaultOptionsHandler] resolves with, its header object
    being at [l]. *)
Definition built_options (resourceOptions : ResourceOptions)
    (o : DefaultRequestOptions) (l : loc) : RequestOptions :=
  {| headers := Some l;
     timeout := None;
     method := Some (default "GET" (call_method o));
     searchParams :=
       (let q := formatQuery (call_searchParams o) in
        if Js.truthy_string q then Some q else None);
     prefixUrl := Some (ro_url resourceOptions);
     body :=
       match call_body o with
       | Some (FormBody form) => Some (FormRequestBody form)
       | Some (ObjectBody fields) =>
           Some (StringBody (JSON_stringify (decamelizeKeys (Js.Obj fields))))
       | None => None
       end;
     asStream := Some (default false (call_asStream o));
     signal := call_signal o;
     agent := ro_agent resourceOptions |}.

(** The name of the auth header that is consulted, if there is one. *)
Definition first_auth_key (resourceOptions : ResourceOptions) : option string :=
  fst <$> head (ro_authHeaders resourceOptions).

(** The first auth-header function, run on [s], rejects with [e]. *)
Definition auth_rejected (resourceOptions : ResourceOptions) (s : state)
    (e : Error) : Prop :=
  exists key fn rest w,
    ro_authHeaders resourceOptions = (key, fn) :: rest
    /\ fn (world s) = (Rejected e, w).

End requester.

Arguments State {World} heap world.
Arguments heap {World} s.
Arguments world {World} s.
Arguments ret {World Error A} a s.
Arguments bind {World Error A B} m k s.
Arguments await {World Error} fn s.
Arguments spread {World Error} source s.
Arguments assign {World Error} l key value s.
Arguments Build_ResourceOptions {World Error} ro_headers ro_authHeaders ro_url ro_agent.
Arguments ro_headers {World Error} r.
Arguments ro_authHeaders {World Error} r.
Arguments ro_url {World Error} r.
Arguments ro_agent {World Error} r.
Arguments apply_sudo {World Error} l sudo s.
Arguments apply_body {World Error} decamelizeKeys JSON_stringify l defaultOptions b s.
Arguments apply_auth {World Error} l authHeaders s.
Arguments defaultOptionsHandler {World Error} decamelizeKeys stringify JSON_stringify
  resourceOptions callOptions s.
Arguments verb {World Error Response} decamelizeKeys stringify JSON_stringify
  optionsHandler requestHandler serviceOptions m endpoint options s.
Arguments createRequesterFn {World Error Response} decamelizeKeys stringify JSON_stringify
  optionsHandler requestHandler serviceOptions.
Arguments identityOptionsHandler {World Error} _ requestOptions s.
Arguments headers_of {World} s options.
Arguments static_headers {World Error} s resourceOptions o.
Arguments built_options {World Error} decamelizeKeys stringify JSON_stringify
  resourceOptions o l.
Arguments first_auth_key {World Error} resourceOptions.
Arguments auth_rejected {World Error} resourceOptions s e.

(** ** Preset constructors *)

Section preset.

(** The values of configuration properties ([unknown] in the source),
    the constructor arguments that are not configuration objects, what a
    constructor call produces, and the values of the resource mapping that
    are not functions. *)
Variable Property : Type.
Variable Argument : Type.
Variable Instance : Type.
Variable Plain : Type.

(** The own enumerable properties of an argument that is not a plain
    configuration object, as an object spread sees them. *)
Variable own_properties : Argument -> gmap string Property.

(** An argument of a constructor call. *)
Inductive argument : Type :=
| Undefined
| Config (config : gmap string Property)
| Other (a : Argument).

(** A class, seen through what [new C(...args)] produces.  The class that
    [createPresetConstructor] derives adds no member of its own, so an
    instance of it is what the inherited constructor builds. *)
Definition Constructor : Type := list argument -> Instance.

(** What [...x] contributes to an object literal; [undefined]
    contributes nothing. *)
Definition properties (x : argument) : gmap string Property :=
  match x with
  | Undefined => ∅
  | Config config => config
  | Other a => own_properties a
  end.

(** The object literal [{ ...a, ...b }]: the entries of [a], then the
    entries of [b] written over them. *)
Definition object_spread (a b : gmap string Property) : gmap string Property :=
  b ∪ (a ∪ ∅).

(** [createPresetConstructor(Constructor, presetConfig)] *)
Definition createPresetConstructor (C : Constructor)
    (presetConfig : gmap string Property) : Constructor :=
  fun args =>
    let config := hd Undefined args in
    let rest := tl args in
    C (Config (object_spread presetConfig (properties config)) :: rest).

(** What the evaluation of a synchronous call completes with: a returned
    value or a thrown one. *)
Inductive completion (A : Type) : Type :=
| Returned (a : A)
| Thrown (e : string).

(** The name of the error that [class extends f] throws when [f] cannot
    be constructed. *)
Definition TypeError : string := "TypeError".

(** A value of the resource mapping.  [typeof value === 'function'] holds
    of a class (or any other function that can be constructed) and of a
    function that cannot be constructed (an arrow function, an async
    function, a method); it fails for every other value. *)
Inductive resource : Type :=
| Function (C : Constructor)
| NotConstructible (f : Argument)
| PlainValue (v : Plain).

(** The body of the loop on one entry: [class extends Constructor] throws
    a [TypeError] when the value is a function that cannot be
    constructed; a thrown value ends the [forEach] and the call. *)
Definition forEach_step (customConfig : gmap string Property)
    (acc : completion (gmap string resource)) (entry : string * resource)
  : completion (gmap string resource) :=
  match acc with
  | Thrown _ e => Thrown _ e
  | Returned _ result =>
      match snd entry with
      | Function C =>
          Returned _
            (<[fst entry := Function (createPresetConstructor C customConfig)]> result)
      | NotConstructible _ => Thrown _ TypeError
      | PlainValue v => Returned _ (<[fst entry := PlainValue v]> result)
      end
  end.

(** [presetResourceArguments(resources, customConfig = {})] *)
Definition presetResourceArguments (resources : gmap string resource)
    (customConfig : option (gmap string Property))
  : completion (gmap string resource) :=
  let customConfig := default ∅ customConfig in
  foldl (forEach_step customConfig) (Returned _ ∅) (map_to_list resources).

(** What the body of the loop stores under the key of an entry that does
    not make it throw. *)
Definition stored (customConfig : gmap string Property) (x : resource) : resource :=
  match x with
  | Function C => Function (createPresetConstructor C customConfig)
  | NotConstructible f => NotConstructible f
  | PlainValue v => PlainValue v
  end.

(** No value of the mapping is a function that cannot be constructed. *)
Definition constructible (resources : gmap string resource) : Prop :=
  forall key f, resources !! key <> Some (NotConstructible f).

End preset.

Arguments properties {Property Argument} own_properties x.
Arguments object_spread {Property} a b.
Arguments createPresetConstructor {Property Argument Instance} own_properties C
  presetConfig args.
Arguments presetResourceArguments {Property Argument Instance Plain} own_properties
  resources customConfig.
Arguments stored {Property Argument Instance Plain} own_properties customConfig x.
Arguments Undefined {Property Argument}.
Arguments Config {Property Argument} config.
Arguments Other {Property Argument} a.
Arguments Function {Property Argument Instance Plain} C.
Arguments NotConstructible {Property Argument Instance Plain} f.
Arguments PlainValue {Property Argument Instance Plain} v.
Arguments Returned {A} a.
Arguments Thrown {A} e.
Arguments forEach_step {Property Argument Instance Plain} own_properties customConfig
  acc entry.
Arguments constructible {Property Argument Instance Plain} resources.

(** ** The module with its imports as modelled *)

Module Modelled.

(** [formatQuery] over the modelled [xcase] and [qs]. *)
Definition formatQuery (params : option (list (string * Js.value))) : string :=
  formatQuery Xcase.decamelizeKeys Qs.stringify params.

(** [defaultOptionsHandler] over the modelled [xcase], [qs] and [JSON]. *)
Definition defaultOptionsHandler {World Error : Type}
    (resourceOptions : ResourceOptions World Error)
    (callOptions : option DefaultRequestOptions)
  : state World -> outcome Error RequestOptions * state World :=
  defaultOptionsHandler Xcase.decamelizeKeys Qs.stringify Json.stringify
    resourceOptions callOptions.

(** [createRequesterFn] over the modelled [xcase], [qs] and [JSON]. *)
Definition createRequesterFn {World Error Response : Type}
    (optionsHandler : OptionsHandlerFn World Error)
    (requestHandler : RequestHandlerFn World Error Response)
    (serviceOptions : ResourceOptions World Error)
  : gmap string (VerbFn World Error Response) :=
  createRequesterFn Xcase.decamelizeKeys Qs.stringify Json.stringify
    optionsHandler requestHandler serviceOptions.

End Modelled.

(** ** Instrumented collaborators and sample inputs *)

Module Fixture.

(** What the instrumented collaborators write down: the name of an
    injected function that ran, or what the request handler was given. *)
Inductive event : Type :=
| Invoked (name : string)
| Received (endpoint : string) (options : RequestOptions).

Definition World : Type := list event.
Definition Error : Type := string.
Definition Response : Type := string.

Definition fn1 : AuthHeaderFn World Error :=
  fun w => (Resolved "token-1", (w ++ [Invoked "fn1"])%list).

Definition fn2 : AuthHeaderFn World Error :=
  fun w => (Resolved "token-2", (w ++ [Invoked "fn2"])%list).

Definition denied : AuthHeaderFn World Error :=
  fun w => (Rejected "denied", (w ++ [Invoked "denied"])%list).

Definition plain_text : AuthHeaderFn World Error :=
  fun w => (Resolved "text/plain", (w ++ [Invoked "plain_text"])%list).

(** [{ a: '1' }] at location 1, and nobody has run yet. *)
Definition preconfigured : gmap string string := {[ "a" := "1" ]}.

Definition initial : state World :=
  State {[ 1%positive := preconfigured ]} [].

Definition service (authHeaders : list (string * AuthHeaderFn World Error))
  : ResourceOptions World Error :=
  Build_ResourceOptions 1%positive authHeaders "https://x" None.

(** [{ Authorization: fn1, 'X-Other': fn2 }] *)
Definition two_auth_headers : ResourceOptions World Error :=
  service [("Authorization", fn1); ("X-Other", fn2)].

Definition no_auth_headers : ResourceOptions World Error := service [].

Definition denied_auth : ResourceOptions World Error :=
  service [("Authorization", denied)].

Definition content_type_auth : ResourceOptions World Error :=
  service [("content-type", plain_text)].

Definition sudo_auth : ResourceOptions World Error :=
  service [("sudo", fn1)].

Definition with_body (b : Body) : DefaultRequestOptions :=
  {| call_body := Some b; call_searchParams := None; call_sudo := None;
     call_method := None; call_asStream := None; call_signal := None |}.

Definition with_sudo (x : Sudo) : DefaultRequestOptions :=
  {| call_body := None; call_searchParams := None; call_sudo := Some x;
     call_method := None; call_asStream := None; call_signal := None |}.

(** [{ userName: 'x' }] *)
Definition user_name : list (string * Js.value) := [("userName", Js.Str "x")].

Definition form : FormData := FormDataRef 7.


Definition recordingRequestHandler : RequestHandlerFn World Error Response :=
  fun endpoint options s =>
    (Resolved "ok", State (heap s) (world s ++ [Received endpoint options])%list).

Definition failingRequestHandler : RequestHandlerFn World Error Response :=
  fun endpoint options s =>
    (Rejected "unreachable", State (heap s) (world s ++ [Invoked "request"])%list).

Definition failingOptionsHandler : OptionsHandlerFn World Error :=
  fun _ _ s =>
    (Rejected "bad options", State (heap s) (world s ++ [Invoked "options"])%list).

(** A constructor that keeps its arguments as the instance. *)
Definition ctorA : Constructor Z unit (list (argument Z unit)) :=
  fun args => args.

Definition no_properties : unit -> gmap string Z := fun _ => ∅.

(** [{ A: ctorA, version: '1.0' }] *)
Definition resources
  : gmap string (resource Z unit (list (argument Z unit)) string) :=
  <["A" := Function ctorA]> {[ "version" := PlainValue "1.0" ]}.

End Fixture.

(** ** Further definitions used by the properties of the whole module *)

(** The assignment [options.method = m]. *)
Definition set_method (options : RequestOptions) (m : string) : RequestOptions :=
  {| headers := headers options; timeout := timeout options;
     method := Some m; searchParams := searchParams options;
     prefixUrl := prefixUrl options; body := body options;
     asStream := asStream options; signal := signal options;
     agent := agent options |}.

(** An async computation that leaves every header object allocated
    before it runs as it was. *)
Definition keeps_header_objects {World Error A : Type}
    (m : state World -> outcome Error A * state World) : Prop :=
  forall s l, l ∈ dom (heap s) -> heap (snd (m s)) !! l = heap s !! l.

Module Scenario.
Import Fixture.

(** An auth-header function whose value changes from call to call: it
    resolves with the number of events written down so far. *)
Definition counter : AuthHeaderFn World Error :=
  fun w => (Resolved (pretty (length w)), (w ++ [Invoked "counter"])%list).

Definition counter_auth : ResourceOptions World Error :=
  service [("Authorization", counter)].

(** Preconfigured headers [{ a: '1', sudo: 'root' }] at location 1. *)
Definition sudo_preconfigured : gmap string string :=
  <["sudo" := "root"]> preconfigured.

Definition sudo_initial : state World :=
  State {[ 1%positive := sudo_preconfigured ]} [].

(** An options handler that replaces the method. *)
Definition headOptionsHandler : OptionsHandlerFn World Error :=
  fun _ requestOptions s => (Resolved (set_method requestOptions "HEAD"), s).

(** [{ version: '1.0', name: 'api' }] *)
Definition plain_resources
  : gmap string (resource Z unit (list (argument Z unit)) string) :=
  <["name" := PlainValue "api"]> {[ "version" := PlainValue "1.0" ]}.


End Scenario.

(** * Properties *)

(** ** The option builder, step by step *)

Section builder_run.

Context {World Error : Type}.
Variable decamelizeKeys : Js.value -> Js.value.
Variable stringify : Js.value -> string.
Variable JSON_stringify : Js.value -> string.

Implicit Types (s : state World) (ro : ResourceOptions World Error).

Lemma alter_insert_fresh (h : gmap loc (gmap string string)) l x key value :
  alter (insert key value) l (<[l := x]> h) = <[l := <[key := value]> x]> h.
Proof.
  apply map_eq. intros i. destruct (decide (i = l)) as [->|Hne].
  - by rewrite lookup_alter_eq, !lookup_insert_eq.
  - by rewrite lookup_alter_ne, !lookup_insert_ne.
Qed.

(** The builder in closed form: the only way for it to reject is a
    rejection by the first auth-header function. *)
Lemma defaultOptionsHandler_run ro callOptions s :
  let o := default no_options callOptions in
  let l := fresh (dom (heap s)) in
  let r := built_options decamelizeKeys stringify JSON_stringify ro o l in
  let h := static_headers s ro o in
  defaultOptionsHandler decamelizeKeys stringify JSON_stringify ro callOptions s =
  match ro_authHeaders ro with
  | [] => (Resolved r, State (<[l := h]> (heap s)) (world s))
  | (key, fn) :: _ =>
      match fn (world s) with
      | (Resolved v, w) => (Resolved r, State (<[l := <[key := v]> h]> (heap s)) w)
      | (Rejected e, w) => (Rejected e, State (<[l := h]> (heap s)) w)
      end
  end.
Proof.
  intros o l r h. subst r h.
  unfold defaultOptionsHandler, built_options, static_headers. fold o.
  clearbody o. destruct ro as [hdrs auth u ag], o as [b sp sd m st sg].
  cbn [ro_headers ro_authHeaders ro_url ro_agent call_body call_searchParams
       call_sudo call_method call_asStream call_signal].
  generalize (formatQuery decamelizeKeys stringify sp) as q. intros q.
  unfold bind, spread. cbn [heap world]. fold l.
  assert (Hsudo : forall x : gmap string string,
    apply_sudo (World:=World) (Error:=Error) l sd (State (<[l := x]> (heap s)) (world s)) =
    (Resolved tt,
     State (<[l := match sd with
                   | Some y => if truthy_sudo y then <["sudo" := sudo_to_string y]> x else x
                   | None => x
                   end]> (heap s)) (world s))).
  { intros x. unfold apply_sudo. destruct sd as [y|]; [|reflexivity].
    destruct (truthy_sudo y); [|reflexivity].
    unfold assign. cbn [heap world]. by rewrite alter_insert_fresh. }
  rewrite Hsudo. clear Hsudo.
  set (h1 := match sd with Some _ => _ | None => _ end).
  unfold apply_body, apply_auth.
  destruct b as [[form|fields]|], auth as [|[key fn] rest];
    unfold bind, assign, ret, await; cbn [heap world];
    rewrite ?alter_insert_fresh;
    try (destruct (fn (world s)) as [[v|e] w]);
    cbn [heap world]; rewrite ?alter_insert_fresh;
    unfold set_searchParams, set_body, set_headers; cbn;
    destruct (Js.truthy_string q); reflexivity.
Qed.

(** The fresh header object is not one of the objects allocated before
    the call. *)
Lemma fresh_loc_not_allocated s l :
  l ∈ dom (heap s) -> l <> fresh (dom (heap s)).
Proof. intros Hl ->. by apply (is_fresh (dom (heap s))). Qed.

(** The header object of the result, read back from the closed form. *)
Lemma headers_of_built (h : gmap loc (gmap string string)) (w : World) ro o l x :
  headers_of (State (<[l := x]> h) w)
    (built_options decamelizeKeys stringify JSON_stringify ro o l) = x.
Proof.
  unfold headers_of. cbn [built_options headers heap mbind option_bind].
  by rewrite lookup_insert_eq.
Qed.

(** Before the auth step, a header other than [sudo] and [content-type]
    is the copied one. *)
Lemma static_headers_other s ro o name :
  name <> "sudo" -> name <> "content-type" ->
  static_headers s ro o !! name = default ∅ (heap s !! ro_headers ro) !! name.
Proof.
  intros Hsudo Hct. unfold static_headers.
  destruct (call_body o) as [[form|fields]|];
    rewrite ?(lookup_insert_ne _ "content-type" name) by done;
    (destruct (call_sudo o) as [x|]; [destruct (truthy_sudo x)|]);
    by rewrite ?(lookup_insert_ne _ "sudo" name) by done.
Qed.

(** C6, as amended.  [defaultOptionsHandler] leaves every header object
    that exists before the call as it is, in particular the one
    [resourceOptions.headers] refers to, whether it resolves or rejects.
    It rejects exactly when the first auth-header function does, with the
    same thrown value; otherwise it resolves, the result is populated, and
    its [headers] is a fresh object holding a copy of the preconfigured
    entries, apart from [sudo], [content-type] and the auth header. *)
Theorem defaultOptionsHandler_frame ro callOptions s (preconfigured : gmap string string) :
  heap s !! ro_headers ro = Some preconfigured ->
  let out := defaultOptionsHandler decamelizeKeys stringify JSON_stringify ro callOptions s in
  heap (snd out) !! ro_headers ro = Some preconfigured
  /\ (forall l, l ∈ dom (heap s) -> heap (snd out) !! l = heap s !! l)
  /\ match fst out with
     | Resolved r =>
         (exists l, headers r = Some l /\ (l ∉ dom (heap s)) /\ l <> ro_headers ro
                    /\ is_Some (heap (snd out) !! l))
         /\ (forall name,
               name <> "sudo" -> name <> "content-type" ->
               first_auth_key ro <> Some name ->
               headers_of (snd out) r !! name = preconfigured !! name)
         /\ method r = Some (default "GET" (call_method (default no_options callOptions)))
         /\ asStream r = Some (default false (call_asStream (default no_options callOptions)))
         /\ prefixUrl r = Some (ro_url ro)
         /\ signal r = call_signal (default no_options callOptions)
         /\ agent r = ro_agent ro
         /\ (forall e, ~ auth_rejected ro s e)
     | Rejected e => auth_rejected ro s e
     end.
Proof.
  intros Hpre out.
  assert (Hframe : forall l, l ∈ dom (heap s) -> heap (snd out) !! l = heap s !! l).
  { intros l Hl. apply fresh_loc_not_allocated in Hl. subst out.
    rewrite defaultOptionsHandler_run.
    destruct (ro_authHeaders ro) as [|[key fn] rest];
      [|destruct (fn (world s)) as [[v|e] w]];
      cbn [snd heap]; by rewrite lookup_insert_ne. }
  split; [|split; [exact Hframe|]].
  - rewrite Hframe; [done|]. apply elem_of_dom. by eexists.
  - assert (Hne : fresh (dom (heap s)) <> ro_headers ro).
    { intros Heq. apply (is_fresh (dom (heap s))). rewrite Heq.
      apply elem_of_dom. by eexists. }
    assert (Hother : forall name,
              name <> "sudo" -> name <> "content-type" ->
              static_headers s ro (default no_options callOptions) !! name
              = preconfigured !! name).
    { intros name H1 H2. rewrite static_headers_other by done. by rewrite Hpre. }
    subst out. rewrite defaultOptionsHandler_run. unfold auth_rejected, first_auth_key.
    destruct (ro_authHeaders ro) as [|[key fn] rest] eqn:Hauth;
      [|destruct (fn (world s)) as [[v|e] w] eqn:Hfn];
      cbn [fst snd].
    + split; [|split].
      * eexists. cbn [built_options headers heap]. repeat split; try done.
        -- apply is_fresh.
        -- rewrite lookup_insert_eq. by eexists.
      * intros name H1 H2 _. rewrite headers_of_built. by apply Hother.
      * repeat split; try done. by intros e (? & ? & ? & ? & [=] & _).
    + split; [|split].
      * eexists. cbn [built_options headers heap]. repeat split; try done.
        -- apply is_fresh.
        -- rewrite lookup_insert_eq. by eexists.
      * intros name H1 H2 Hk. rewrite headers_of_built.
        rewrite lookup_insert_ne; [by apply Hother|].
        intros ->. by apply Hk.
      * repeat split; try done.
        intros e (? & ? & ? & ? & [= <- <- <-] & Hrej). by rewrite Hfn in Hrej.
    + by exists key, fn, rest, w.
Qed.


(** C2, as amended.  Provided the auth header that is consulted is not
    named [content-type]: a form body is handed over as the same object
    and [content-type] stays what the preconfigured headers say; any other
    body becomes the JSON text of its key-decamelized form and
    [content-type] is [application/json].  The builder rejects only with
    the rejection of the first auth-header function. *)
Theorem defaultOptionsHandler_body ro o s b :
  call_body o = Some b ->
  first_auth_key ro <> Some "content-type" ->
  match defaultOptionsHandler decamelizeKeys stringify JSON_stringify ro (Some o) s with
  | (Resolved r, s') =>
      match b with
      | FormBody form =>
          body r = Some (FormRequestBody form)
          /\ headers_of s' r !! "content-type"
             = default ∅ (heap s !! ro_headers ro) !! "content-type"
      | ObjectBody fields =>
          body r = Some (StringBody (JSON_stringify (decamelizeKeys (Js.Obj fields))))
          /\ headers_of s' r !! "content-type" = Some "application/json"
      end
  | (Rejected e, _) => auth_rejected ro s e
  end.
Proof.
  intros Hb Hkey. rewrite defaultOptionsHandler_run. cbn [default from_option id].
  unfold first_auth_key, auth_rejected in *.
  assert (Hstatic : static_headers s ro o !! "content-type" =
            match b with
            | FormBody _ => default ∅ (heap s !! ro_headers ro) !! "content-type"
            | ObjectBody _ => Some "application/json"
            end).
  { unfold static_headers. rewrite Hb. destruct b as [form|fields].
    - destruct (call_sudo o) as [x|]; [destruct (truthy_sudo x)|]; try done.
      by rewrite lookup_insert_ne.
    - apply lookup_insert_eq. }
  assert (Hbody : body (built_options decamelizeKeys stringify JSON_stringify ro o
                          (fresh (dom (heap s)))) =
            match b with
            | FormBody form => Some (FormRequestBody form)
            | ObjectBody fields =>
                Some (StringBody (JSON_stringify (decamelizeKeys (Js.Obj fields))))
            end).
  { cbn [built_options body]. rewrite Hb. by destruct b. }
  destruct (ro_authHeaders ro) as [|[key fn] rest] eqn:Hauth;
    [|destruct (fn (world s)) as [[v|e] w] eqn:Hfn]; cbv beta iota.
  - rewrite headers_of_built, Hbody, Hstatic. by destruct b.
  - rewrite headers_of_built, Hbody, lookup_insert_ne, Hstatic; [by destruct b|].
    intros ->. by apply Hkey.
  - by exists key, fn, rest, w.
Qed.

(** C5, as amended.  When the call options carry a sudo value and the
    auth header that is consulted is not named [sudo]: if the value is
    truthy (a non-empty string, or a number other than zero and [NaN]) the
    result headers map [sudo] to its string form, and the string form of
    42 is the numeral 42; if it is falsy the builder writes no [sudo]
    header, and the result has the preconfigured one, if any.  The builder
    rejects only with the rejection of the first auth-header function. *)
Theorem defaultOptionsHandler_sudo ro o s x :
  call_sudo o = Some x ->
  first_auth_key ro <> Some "sudo" ->
  sudo_to_string (SudoNumber (Js.Int 42 I)) = "42"
  /\ match defaultOptionsHandler decamelizeKeys stringify JSON_stringify ro (Some o) s with
     | (Resolved r, s') =>
         headers_of s' r !! "sudo"
         = if truthy_sudo x then Some (sudo_to_string x)
           else default ∅ (heap s !! ro_headers ro) !! "sudo"
     | (Rejected e, _) => auth_rejected ro s e
     end.
Proof.
  intros Hsudo Hkey. split; [reflexivity|].
  rewrite defaultOptionsHandler_run. cbn [default from_option id].
  unfold first_auth_key, auth_rejected in *.
  assert (Hstatic : static_headers s ro o !! "sudo"
                    = if truthy_sudo x then Some (sudo_to_string x)
                      else default ∅ (heap s !! ro_headers ro) !! "sudo").
  { unfold static_headers. rewrite Hsudo.
    destruct (call_body o) as [[form|fields]|];
      rewrite ?(lookup_insert_ne _ "content-type" "sudo") by done;
      destruct (truthy_sudo x); try done; apply lookup_insert_eq. }
  destruct (ro_authHeaders ro) as [|[key fn] rest] eqn:Hauth;
    [|destruct (fn (world s)) as [[v|e] w] eqn:Hfn]; cbv beta iota.
  - by rewrite headers_of_built.
  - rewrite headers_of_built, lookup_insert_ne; [done|].
    intros ->. by apply Hkey.
  - by exists key, fn, rest, w.
Qed.

End builder_run.

(** ** The requester *)

Section requester_properties.

Context {World Error Response : Type}.
Variable decamelizeKeys : Js.value -> Js.value.
Variable stringify : Js.value -> string.
Variable JSON_stringify : Js.value -> string.

Implicit Types (s : state World) (ro : ResourceOptions World Error).
Implicit Types (optionsHandler : OptionsHandlerFn World Error).
Implicit Types (requestHandler : RequestHandlerFn World Error Response).

(** A copy of the options has the fields of the original. *)
Lemma copy_options_same (options : RequestOptions) : copy_options options = options.
Proof. by destruct options. Qed.





(** C9. A rejection by the auth-header function, by the options handler
    or by the request handler is the rejection of the verb, with the same
    thrown value; after a rejection by the auth-header function the
    collaborators are in the state that function left, so neither handler
    ran. *)
Theorem verb_propagates_rejection optionsHandler requestHandler ro m endpoint options s :
  let f := verb decamelizeKeys stringify JSON_stringify
             optionsHandler requestHandler ro m in
  let built := defaultOptionsHandler decamelizeKeys stringify JSON_stringify ro
                 (Some (with_method options (Js.toUpperCase m))) s in
  (forall key fn rest e w,
      ro_authHeaders ro = (key, fn) :: rest ->
      fn (world s) = (Rejected e, w) ->
      exists s', f endpoint options s = (Rejected e, s') /\ world s' = w)
  /\ (forall r s1 e s2,
        built = (Resolved r, s1) ->
        optionsHandler ro r s1 = (Rejected e, s2) ->
        f endpoint options s = (Rejected e, s2))
  /\ (forall r s1 r' s2 e s3,
        built = (Resolved r, s1) ->
        optionsHandler ro r s1 = (Resolved r', s2) ->
        requestHandler endpoint (copy_options r') s2 = (Rejected e, s3) ->
        f endpoint options s = (Rejected e, s3)).
Proof.
  intros f built. subst f built. unfold verb. repeat split.
  - intros key fn rest e w Hauth Hfn. unfold bind at 1.
    rewrite defaultOptionsHandler_run, Hauth, Hfn. by eexists.
  - intros r s1 e s2 Hbuilt Hoh. unfold bind. by rewrite Hbuilt, Hoh.
  - intros r s1 r' s2 e s3 Hbuilt Hoh Hrh. unfold bind. by rewrite Hbuilt, Hoh.
Qed.


End requester_properties.

(** ** Preset constructors *)

Section preset_properties.

Context {Property Argument Instance Plain : Type}.
Variable own_properties : Argument -> gmap string Property.

Implicit Types (resources : gmap string (resource Property Argument Instance Plain)).
Implicit Types (C : Constructor Property Argument Instance).
Implicit Types (presetConfig : gmap string Property).
Implicit Types (entries : list (string * resource Property Argument Instance Plain)).

(** Once a value is thrown the loop is over. *)
Lemma forEach_thrown presetConfig entries e :
  foldl (forEach_step own_properties presetConfig) (Thrown e) entries = Thrown e.
Proof. induction entries as [|entry entries IH]; [done|]. exact IH. Qed.

(** The loop throws as soon as an entry is a function that cannot be
    constructed. *)
Lemma forEach_throws presetConfig entries result :
  Exists (fun entry => exists f, snd entry = NotConstructible f) entries ->
  foldl (forEach_step own_properties presetConfig) (Returned result) entries
  = Thrown TypeError.
Proof.
  intros Hex. revert result.
  induction entries as [|[k x] entries IH]; intros result.
  - by apply Exists_nil in Hex.
  - apply Exists_cons in Hex as [[f Hf]|Hex]; cbn [foldl forEach_step snd fst] in *.
    + rewrite Hf. apply forEach_thrown.
    + destruct x; [by apply IH|apply forEach_thrown|by apply IH].
Qed.

(** Over entries none of which makes it throw, the loop returns the
    object in which each key, the keys being distinct, holds what the body
    stores for its value. *)
Lemma forEach_returns presetConfig entries result :
  Forall (fun entry => forall f, snd entry <> NotConstructible f) entries ->
  NoDup entries.*1 ->
  exists result',
    foldl (forEach_step own_properties presetConfig) (Returned result) entries
    = Returned result'
    /\ forall key,
         result' !! key
         = match (list_to_map entries : gmap string _) !! key with
           | Some x => Some (stored own_properties presetConfig x)
           | None => result !! key
           end.
Proof.
  revert result. induction entries as [|[k x] entries IH]; intros result Hall Hnodup.
  - exists result. split; [done|]. intros key. simpl. by rewrite lookup_empty.
  - apply Forall_cons in Hall as [Hx Hall].
    apply NoDup_cons in Hnodup as [Hk Hnodup].
    cbn [foldl forEach_step fst snd] in *.
    assert (Hstep : match x with
                    | Function C =>
                        Returned (<[k := Function (createPresetConstructor
                                                     own_properties C presetConfig)]> result)
                    | NotConstructible _ => Thrown TypeError
                    | PlainValue v => Returned (<[k := PlainValue v]> result)
                    end
                    = Returned (<[k := stored own_properties presetConfig x]> result)).
    { destruct x as [C|f|v]; [done| |done]. by destruct (Hx f). }
    rewrite Hstep.
    destruct (IH (<[k := stored own_properties presetConfig x]> result) Hall Hnodup)
      as (result' & -> & Hlookup).
    exists result'. split; [done|]. intros key. rewrite Hlookup.
    cbn [list_to_map foldr curry fst snd].
    destruct (decide (key = k)) as [->|Hne].
    + by rewrite (not_elem_of_list_to_map_1 _ _ Hk), !lookup_insert_eq.
    + by rewrite !(lookup_insert_ne _ k key).
Qed.

(** Either no value of the mapping is a function that cannot be
    constructed, or one is. *)
Lemma constructible_or_not resources :
  constructible resources
  \/ exists key f, resources !! key = Some (NotConstructible f).
Proof.
  unfold constructible.
  induction resources as [|k x m Hk _ IH] using map_first_key_ind.
  - left. intros key f. by rewrite lookup_empty.
  - destruct x as [C|f|v].
    + destruct IH as [IH|(key & f & Hf)].
      * left. intros key f. rewrite lookup_insert. case_decide; [done|apply IH].
      * right. exists key, f. rewrite lookup_insert_ne; [done|]. by intros ->; rewrite Hk in Hf.
    + right. exists k, f. apply lookup_insert_eq.
    + destruct IH as [IH|(key & f & Hf)].
      * left. intros key f. rewrite lookup_insert. case_decide; [done|apply IH].
      * right. exists key, f. rewrite lookup_insert_ne; [done|]. by intros ->; rewrite Hk in Hf.
Qed.

(** [presetResourceArguments] returns when no value is a function that
    cannot be constructed: each key then holds the derived class of a
    class and any other value itself. *)
Lemma presetResourceArguments_returns resources customConfig :
  constructible resources ->
  presetResourceArguments own_properties resources customConfig
  = Returned (stored own_properties (default ∅ customConfig) <$> resources).
Proof.
  intros Hc. unfold presetResourceArguments.
  destruct (forEach_returns (default ∅ customConfig) (map_to_list resources) ∅)
    as (result & -> & Hlookup).
  - apply Forall_forall. intros [k x] Hin f Hx. cbn in Hx. subst x.
    apply elem_of_map_to_list in Hin. by apply (Hc k f).
  - apply NoDup_fst_map_to_list.
  - f_equal. apply map_eq. intros key.
    rewrite Hlookup, list_to_map_to_list, lookup_fmap.
    destruct (resources !! key); [done|]. by rewrite lookup_empty.
Qed.

(** [presetResourceArguments] throws when a value is a function that
    cannot be constructed. *)
Lemma presetResourceArguments_throws resources customConfig key f :
  resources !! key = Some (NotConstructible f) ->
  presetResourceArguments own_properties resources customConfig = Thrown TypeError.
Proof.
  intros Hkey. unfold presetResourceArguments. apply forEach_throws.
  apply Exists_exists. exists (key, NotConstructible f). split.
  - by apply elem_of_map_to_list.
  - by exists f.
Qed.

(** The two ways for [presetResourceArguments] to complete. *)
Lemma presetResourceArguments_cases resources customConfig :
  match presetResourceArguments own_properties resources customConfig with
  | Returned result =>
      constructible resources
      /\ result = stored own_properties (default ∅ customConfig) <$> resources
  | Thrown e =>
      e = TypeError /\ exists key f, resources !! key = Some (NotConstructible f)
  end.
Proof.
  destruct (constructible_or_not resources) as [Hc|(key & f & Hkey)].
  - by rewrite (presetResourceArguments_returns _ _ Hc).
  - rewrite (presetResourceArguments_throws _ _ _ _ Hkey). split; [done|].
    by exists key, f.
Qed.

(** An object spread takes each property from the later source when it
    has it, the whole value as it is, and from the earlier one otherwise. *)
Lemma object_spread_lookup (a b : gmap string Property) name :
  object_spread a b !! name
  = match b !! name with
    | Some x => Some x
    | None => a !! name
    end.
Proof.
  unfold object_spread. rewrite (right_id_L ∅ (∪)).
  destruct (b !! name) as [x|] eqn:Hb.
  - by apply lookup_union_Some_l.
  - by rewrite lookup_union_r.
Qed.



End preset_properties.

(** ** Strings and values *)

Module JsFacts.
Import Js.















End JsFacts.

(** ** The query formatter *)

Module QueryFacts.
Import Js Xcase Qs JsFacts.












End QueryFacts.

Section query_string.
Import Js Xcase Qs JsFacts QueryFacts.



End query_string.

(** ** The properties at the sample inputs *)

Section samples.
Import Fixture.

(** With preconfigured headers [{ a: '1' }], no auth headers and no call
    options, the result has a copy of these headers, the method GET, and
    neither body nor search parameters. *)
Example defaultOptionsHandler_no_options :
  exists r s',
    Modelled.defaultOptionsHandler no_auth_headers None initial = (Resolved r, s')
    /\ headers_of s' r = preconfigured
    /\ headers r <> Some 1%positive
    /\ method r = Some "GET"
    /\ body r = None
    /\ searchParams r = None
    /\ world s' = [].
Proof.
  do 2 eexists. split; [vm_compute; reflexivity|].
  repeat split; try reflexivity. vm_compute. discriminate.
Qed.


(** C2 at the body [{ userName: 'x' }]. *)
Lemma defaultOptionsHandler_body_sample :
  match Modelled.defaultOptionsHandler two_auth_headers
          (Some (with_body (ObjectBody user_name))) initial with
  | (Resolved r, s') =>
      body r = Some (StringBody (Json.stringify (Js.Obj [("user_name", Js.Str "x")])))
      /\ headers_of s' r !! "content-type" = Some "application/json"
  | (Rejected e, _) => auth_rejected two_auth_headers initial e
  end.
Proof.
  apply (defaultOptionsHandler_body
           Xcase.decamelizeKeys Qs.stringify Json.stringify
           two_auth_headers (with_body (ObjectBody user_name)) initial
           (ObjectBody user_name)).
  - reflexivity.
  - vm_compute. discriminate.
Defined.

(** C5 at [sudo = 42]. *)
Lemma defaultOptionsHandler_sudo_sample :
  sudo_to_string (SudoNumber (Js.Int 42 I)) = "42"
  /\ match Modelled.defaultOptionsHandler two_auth_headers
             (Some (with_sudo (SudoNumber (Js.Int 42 I)))) initial with
     | (Resolved r, s') => headers_of s' r !! "sudo" = Some "42"
     | (Rejected e, _) => auth_rejected two_auth_headers initial e
     end.
Proof.
  apply (defaultOptionsHandler_sudo
           Xcase.decamelizeKeys Qs.stringify Json.stringify
           two_auth_headers (with_sudo (SudoNumber (Js.Int 42 I))) initial
           (SudoNumber (Js.Int 42 I))).
  - reflexivity.
  - vm_compute. discriminate.
Defined.

(** C6 at the preconfigured headers [{ a: '1' }]. *)
Lemma defaultOptionsHandler_frame_sample :
  let out := Modelled.defaultOptionsHandler two_auth_headers
               (Some (with_sudo (SudoNumber (Js.Int 42 I)))) initial in
  heap (snd out) !! 1%positive = Some preconfigured
  /\ (forall l, l ∈ dom (heap initial) -> heap (snd out) !! l = heap initial !! l)
  /\ match fst out with
     | Resolved r =>
         (exists l, headers r = Some l /\ (l ∉ dom (heap initial)) /\ l <> 1%positive
                    /\ is_Some (heap (snd out) !! l))
         /\ (forall name,
               name <> "sudo" -> name <> "content-type" ->
               first_auth_key two_auth_headers <> Some name ->
               headers_of (snd out) r !! name = preconfigured !! name)
         /\ method r = Some "GET"
         /\ asStream r = Some false
         /\ prefixUrl r = Some "https://x"
         /\ signal r = None
         /\ agent r = None
         /\ (forall e, ~ auth_rejected two_auth_headers initial e)
     | Rejected e => auth_rejected two_auth_headers initial e
     end.
Proof.
  exact (defaultOptionsHandler_frame
           Xcase.decamelizeKeys Qs.stringify Json.stringify
           two_auth_headers (Some (with_sudo (SudoNumber (Js.Int 42 I)))) initial
           preconfigured eq_refl).
Defined.


(** C9 at a rejecting auth-header function, a rejecting options handler
    and a rejecting request handler. *)
Lemma verb_propagates_rejection_sample :
  (exists s',
     verb Xcase.decamelizeKeys Qs.stringify Json.stringify
       identityOptionsHandler recordingRequestHandler denied_auth "get"
       "widgets" None initial = (Rejected "denied", s')
     /\ world s' = [Invoked "denied"])
  /\ (exists s2,
        verb Xcase.decamelizeKeys Qs.stringify Json.stringify
          failingOptionsHandler recordingRequestHandler no_auth_headers "post"
          "widgets" None initial = (Rejected "bad options", s2))
  /\ (exists s3,
        verb Xcase.decamelizeKeys Qs.stringify Json.stringify
          identityOptionsHandler failingRequestHandler no_auth_headers "delete"
          "widgets" None initial = (Rejected "unreachable", s3)).
Proof.
  split; [|split].
  - apply (proj1 (verb_propagates_rejection
                    Xcase.decamelizeKeys Qs.stringify Json.stringify
                    identityOptionsHandler recordingRequestHandler denied_auth "get"
                    "widgets" None initial)
             "Authorization" denied [] "denied" [Invoked "denied"]);
      reflexivity.
  - eexists.
    eapply (proj1 (proj2 (verb_propagates_rejection
                    Xcase.decamelizeKeys Qs.stringify Json.stringify
                    failingOptionsHandler recordingRequestHandler no_auth_headers "post"
                    "widgets" None initial)));
      vm_compute; reflexivity.
  - eexists.
    eapply (proj2 (proj2 (verb_propagates_rejection
                    Xcase.decamelizeKeys Qs.stringify Json.stringify
                    identityOptionsHandler failingRequestHandler no_auth_headers "delete"
                    "widgets" None initial)));
      vm_compute; reflexivity.
Defined.

(** The sample mapping [{ A: ctorA, version: '1.0' }] holds no function
    that cannot be constructed. *)
Lemma resources_constructible : constructible resources.
Proof.
  intros key f Hkey. unfold resources in Hkey.
  apply lookup_insert_Some in Hkey as [[_ [=]]|[_ Hkey]].
  by apply lookup_singleton_Some in Hkey as [_ [=]].
Defined.

(** The examples of the specification: with the preset [{ base: 1 }],
    the configuration [{ extra: 2 }] reaches [ctorA] as
    [{ base: 1, extra: 2 }] and [{ base: 9 }] as [{ base: 9 }]. *)
Example presetResourceArguments_examples :
  exists result C',
    presetResourceArguments no_properties resources (Some {[ "base" := 1%Z ]})
    = Returned result
    /\ result !! "A" = Some (Function C')
    /\ C' [Config {[ "extra" := 2%Z ]}]
       = ctorA [Config (<["base" := 1%Z]> {[ "extra" := 2%Z ]})]
    /\ C' [Config {[ "base" := 9%Z ]}] = ctorA [Config {[ "base" := 9%Z ]}].
Proof.
  rewrite (presetResourceArguments_returns _ _ _ resources_constructible).
  do 2 eexists. split; [reflexivity|]. split; [by vm_compute|].
  split; by vm_compute.
Qed.




(** ** Where the statements of the specification fail *)

(** C2 as stated fails: an object body, yet the [content-type] of the
    result is not [application/json], because the auth header that is
    consulted is itself named [content-type] and is written last; with a
    form body the same auth header makes the builder set [content-type]. *)
Lemma content_type_overwritten_by_auth_header :
  (exists r s',
     Modelled.defaultOptionsHandler content_type_auth
       (Some (with_body (ObjectBody user_name))) initial = (Resolved r, s')
     /\ headers_of s' r !! "content-type" = Some "text/plain"
     /\ headers_of s' r !! "content-type" <> Some "application/json")
  /\ (exists r s',
        Modelled.defaultOptionsHandler content_type_auth
          (Some (with_body (FormBody form))) initial = (Resolved r, s')
        /\ body r = Some (FormRequestBody form)
        /\ preconfigured !! "content-type" = None
        /\ headers_of s' r !! "content-type" = Some "text/plain").
Proof.
  split.
  - do 2 eexists. split; [vm_compute; reflexivity|].
    split; [by vm_compute|]. vm_compute. discriminate.
  - do 2 eexists. split; [vm_compute; reflexivity|].
    split; [reflexivity|]. split; by vm_compute.
Qed.

(** C5 as stated fails: the sudo value 0 is present and is a number, yet
    no [sudo] header is set, because 0 is falsy; and a truthy sudo value
    is overwritten when the auth header that is consulted is named
    [sudo]. *)
Lemma falsy_sudo_sets_no_header :
  (exists r s',
     Modelled.defaultOptionsHandler no_auth_headers
       (Some (with_sudo (SudoNumber (Js.Int 0 I)))) initial = (Resolved r, s')
     /\ headers_of s' r !! "sudo" = None)
  /\ (exists r s',
        Modelled.defaultOptionsHandler sudo_auth
          (Some (with_sudo (SudoNumber (Js.Int 42 I)))) initial = (Resolved r, s')
        /\ headers_of s' r !! "sudo" = Some "token-1"
        /\ headers_of s' r !! "sudo" <> Some (sudo_to_string (SudoNumber (Js.Int 42 I)))).
Proof.
  split.
  - do 2 eexists. split; [vm_compute; reflexivity|]. by vm_compute.
  - do 2 eexists. split; [vm_compute; reflexivity|].
    split; [by vm_compute|]. vm_compute. discriminate.
Qed.


(** C6 as stated fails: with an auth-header function that rejects, the
    builder returns no request options at all; it rejects. *)
Lemma no_options_returned_when_auth_rejects :
  (exists s',
     Modelled.defaultOptionsHandler denied_auth None initial = (Rejected "denied", s'))
  /\ forall r s',
       Modelled.defaultOptionsHandler denied_auth None initial <> (Resolved r, s').
Proof.
  split.
  - eexists. vm_compute. reflexivity.
  - intros r s' H. vm_compute in H. discriminate.
Qed.




End samples.

(** * Further properties of the module *)

(** ** The option builder *)

Section builder_more.

Context {World Error : Type}.
Variable decamelizeKeys : Js.value -> Js.value.
Variable stringify : Js.value -> string.
Variable JSON_stringify : Js.value -> string.

Implicit Types (s : state World) (ro : ResourceOptions World Error).

(** The outcome of the builder, by cases on what the auth step does. *)
Lemma defaultOptionsHandler_cases ro callOptions s :
  let o := default no_options callOptions in
  let l := fresh (dom (heap s)) in
  let r := built_options decamelizeKeys stringify JSON_stringify ro o l in
  match defaultOptionsHandler decamelizeKeys stringify JSON_stringify ro callOptions s with
  | (Resolved r', s') =>
      r' = r
      /\ exists w, s' = State (<[l := headers_of s' r]> (heap s)) w
      /\ ((ro_authHeaders ro = [] /\ w = world s
           /\ headers_of s' r = static_headers s ro o)
          \/ exists key fn rest v,
               ro_authHeaders ro = (key, fn) :: rest
               /\ fn (world s) = (Resolved v, w)
               /\ headers_of s' r = <[key := v]> (static_headers s ro o))
  | (Rejected e, _) => auth_rejected ro s e
  end.
Proof.
  intros o l r. subst o l r. rewrite defaultOptionsHandler_run.
  destruct (ro_authHeaders ro) as [|[key fn] rest] eqn:Hauth;
    [|destruct (fn (world s)) as [[v|e] w] eqn:Hfn]; cbv beta iota.
  - split; [done|]. exists (world s). rewrite headers_of_built.
    split; [done|]. by left.
  - split; [done|]. exists w. rewrite headers_of_built.
    split; [done|]. right. by exists key, fn, rest, v.
  - by exists key, fn, rest, w.
Qed.

(** X1. The builder leaves every header other than [sudo], [content-type]
    and the auth header that is consulted as the preconfigured headers
    have it. *)
Theorem defaultOptionsHandler_keeps_other_headers ro callOptions s name :
  name <> "sudo" ->
  name <> "content-type" ->
  first_auth_key ro <> Some name ->
  match defaultOptionsHandler decamelizeKeys stringify JSON_stringify ro callOptions s with
  | (Resolved r, s') =>
      headers_of s' r !! name = default ∅ (heap s !! ro_headers ro) !! name
  | (Rejected e, _) => auth_rejected ro s e
  end.
Proof.
  intros Hsudo Hct Hkey.
  pose proof (defaultOptionsHandler_cases ro callOptions s) as H. cbv zeta in H.
  destruct (defaultOptionsHandler _ _ _ ro callOptions s) as [[r|e] s']; [|exact H].
  destruct H as (-> & w & _ & [(_ & _ & ->)|(key & fn & rest & v & Hauth & _ & ->)]).
  - by apply static_headers_other.
  - rewrite lookup_insert_ne; [by apply static_headers_other|].
    intros ->. apply Hkey. unfold first_auth_key. by rewrite Hauth.
Qed.

(** X2. Without a truthy sudo value the builder writes no [sudo] header:
    the result has the preconfigured one, if any. *)
Theorem defaultOptionsHandler_falsy_sudo ro o s :
  (forall x, call_sudo o = Some x -> truthy_sudo x = false) ->
  first_auth_key ro <> Some "sudo" ->
  match defaultOptionsHandler decamelizeKeys stringify JSON_stringify ro (Some o) s with
  | (Resolved r, s') =>
      headers_of s' r !! "sudo" = default ∅ (heap s !! ro_headers ro) !! "sudo"
  | (Rejected e, _) => auth_rejected ro s e
  end.
Proof.
  intros Hfalsy Hkey.
  pose proof (defaultOptionsHandler_cases ro (Some o) s) as H.
  cbv zeta in H. cbn [default from_option id] in H.
  assert (Hstatic : static_headers s ro o !! "sudo"
                    = default ∅ (heap s !! ro_headers ro) !! "sudo").
  { unfold static_headers.
    destruct (call_body o) as [[form|fields]|];
      rewrite ?(lookup_insert_ne _ "content-type" "sudo") by done;
      (destruct (call_sudo o) as [x|]; [rewrite (Hfalsy x eq_refl)|]); done. }
  destruct (defaultOptionsHandler _ _ _ ro (Some o) s) as [[r|e] s']; [|exact H].
  destruct H as (-> & w & _ & [(_ & _ & ->)|(key & fn & rest & v & Hauth & _ & ->)]).
  - exact Hstatic.
  - rewrite lookup_insert_ne; [exact Hstatic|].
    intros ->. apply Hkey. unfold first_auth_key. by rewrite Hauth.
Qed.

(** X3. Without a body the result has no body and the builder writes no
    [content-type] header: the result has the preconfigured one, if any,
    unless the auth header that is consulted bears that name. *)
Theorem defaultOptionsHandler_no_body ro o s :
  call_body o = None ->
  match defaultOptionsHandler decamelizeKeys stringify JSON_stringify ro (Some o) s with
  | (Resolved r, s') =>
      body r = None
      /\ (first_auth_key ro <> Some "content-type" ->
          headers_of s' r !! "content-type"
          = default ∅ (heap s !! ro_headers ro) !! "content-type")
  | (Rejected e, _) => auth_rejected ro s e
  end.
Proof.
  intros Hbody.
  pose proof (defaultOptionsHandler_cases ro (Some o) s) as H.
  cbv zeta in H. cbn [default from_option id] in H.
  assert (Hstatic : static_headers s ro o !! "content-type"
                    = default ∅ (heap s !! ro_headers ro) !! "content-type").
  { unfold static_headers. rewrite Hbody.
    destruct (call_sudo o) as [x|]; [destruct (truthy_sudo x)|]; try done.
    by rewrite lookup_insert_ne. }
  destruct (defaultOptionsHandler _ _ _ ro (Some o) s) as [[r|e] s']; [|exact H].
  destruct H as (-> & w & _ & Hcases). split.
  { cbn [built_options body]. by rewrite Hbody. }
  intros Hkey.
  destruct Hcases as [(_ & _ & ->)|(key & fn & rest & v & Hauth & _ & ->)].
  - exact Hstatic.
  - rewrite lookup_insert_ne; [exact Hstatic|].
    intros ->. apply Hkey. unfold first_auth_key. by rewrite Hauth.
Qed.

(** X4. The result carries search parameters exactly when the formatted
    query is not empty, and then they are that text: [searchParams] is
    never the empty string.  The builder never sets a timeout. *)
Theorem defaultOptionsHandler_searchParams ro callOptions s :
  let q := formatQuery decamelizeKeys stringify
             (call_searchParams (default no_options callOptions)) in
  match defaultOptionsHandler decamelizeKeys stringify JSON_stringify ro callOptions s with
  | (Resolved r, _) =>
      searchParams r = (if decide (q = "") then None else Some q)
      /\ searchParams r <> Some ""
      /\ timeout r = None
  | (Rejected e, _) => auth_rejected ro s e
  end.
Proof.
  intros q. pose proof (defaultOptionsHandler_cases ro callOptions s) as H.
  cbv zeta in H.
  destruct (defaultOptionsHandler _ _ _ ro callOptions s) as [[r|e] s']; [|exact H].
  destruct H as (-> & _). cbn [built_options searchParams timeout]. fold q.
  destruct q as [|c q']; cbn [Js.truthy_string].
  - by rewrite decide_True.
  - by rewrite decide_False.
Qed.

(** X5. With no auth header configured the builder always resolves and
    runs no injected function: the collaborators are left as they were. *)
Theorem defaultOptionsHandler_no_auth_headers ro callOptions s :
  ro_authHeaders ro = [] ->
  exists r s',
    defaultOptionsHandler decamelizeKeys stringify JSON_stringify ro callOptions s
      = (Resolved r, s')
    /\ world s' = world s.
Proof.
  intros Hauth. rewrite defaultOptionsHandler_run, Hauth. by do 2 eexists.
Qed.

(** X6. Two calls in a row: each gets a header object of its own, the
    second call leaves the header object of the first result as it was,
    the preconfigured headers are still what they were, and the auth
    function runs once per call, so the second result holds the value it
    resolved with the second time. *)
Theorem defaultOptionsHandler_twice
    hdrs key (fn : AuthHeaderFn World Error) rest u ag callOptions1 callOptions2 s
    (preconfigured : gmap string string) v1 w1 v2 w2 :
  heap s !! hdrs = Some preconfigured ->
  fn (world s) = (Resolved v1, w1) ->
  fn w1 = (Resolved v2, w2) ->
  let ro := Build_ResourceOptions hdrs ((key, fn) :: rest) u ag in
  exists r1 s1 r2 s2,
    defaultOptionsHandler decamelizeKeys stringify JSON_stringify ro callOptions1 s
      = (Resolved r1, s1)
    /\ defaultOptionsHandler decamelizeKeys stringify JSON_stringify ro callOptions2 s1
       = (Resolved r2, s2)
    /\ headers r1 <> headers r2
    /\ headers_of s2 r1 = headers_of s1 r1
    /\ headers_of s1 r1 !! key = Some v1
    /\ headers_of s2 r2 !! key = Some v2
    /\ heap s2 !! hdrs = Some preconfigured
    /\ world s2 = w2.
Proof.
  intros Hpre Hfn1 Hfn2 ro. subst ro.
  do 4 eexists.
  split; [rewrite defaultOptionsHandler_run; cbn [ro_authHeaders];
          rewrite Hfn1; reflexivity|].
  split; [rewrite defaultOptionsHandler_run; cbn [ro_authHeaders world];
          rewrite Hfn2; reflexivity|].
  cbn [heap].
  set (l1 := fresh (dom (heap s))).
  set (h1 := <[key := v1]> _).
  set (l2 := fresh (dom (<[l1 := h1]> (heap s)))).
  assert (Hl : l1 <> l2).
  { intros Heq. apply (is_fresh (dom (<[l1 := h1]> (heap s)))). fold l2.
    rewrite <- Heq. apply elem_of_dom. rewrite lookup_insert_eq. by eexists. }
  assert (Hh1 : hdrs <> l1).
  { intros Heq. apply (is_fresh (dom (heap s))). fold l1.
    rewrite <- Heq. apply elem_of_dom. by eexists. }
  assert (Hh2 : hdrs <> l2).
  { intros Heq. apply (is_fresh (dom (<[l1 := h1]> (heap s)))). fold l2.
    rewrite <- Heq. apply elem_of_dom. rewrite lookup_insert_ne by done.
    by eexists. }
  split; [cbn [built_options headers]; congruence|].
  split.
  { unfold headers_of. cbn [built_options headers heap mbind option_bind].
    by rewrite (lookup_insert_ne _ l2 l1), !lookup_insert_eq. }
  split; [rewrite headers_of_built; apply lookup_insert_eq|].
  split; [rewrite headers_of_built; apply lookup_insert_eq|].
  split; [|reflexivity].
  by rewrite !lookup_insert_ne.
Qed.

(** X7. Injecting a method changes nothing but the method: the builder
    called with [{ ...options, method: m }] settles as it does with
    [options], in the same state, the result differing in [method] only. *)
Theorem defaultOptionsHandler_with_method ro options m s :
  defaultOptionsHandler decamelizeKeys stringify JSON_stringify ro
    (Some (with_method options m)) s
  = match defaultOptionsHandler decamelizeKeys stringify JSON_stringify ro options s with
    | (Resolved r, s') => (Resolved (set_method r m), s')
    | (Rejected e, s') => (Rejected e, s')
    end.
Proof.
  rewrite !defaultOptionsHandler_run. cbn [default from_option id].
  assert (Hstatic : static_headers s ro (with_method options m)
                    = static_headers s ro (default no_options options))
    by reflexivity.
  rewrite Hstatic.
  destruct (ro_authHeaders ro) as [|[key fn] rest];
    [|destruct (fn (world s)) as [[v|e] w]]; reflexivity.
Qed.

End builder_more.

(** ** The requester *)

Section requester_more.

Context {World Error Response : Type}.
Variable decamelizeKeys : Js.value -> Js.value.
Variable stringify : Js.value -> string.
Variable JSON_stringify : Js.value -> string.

Implicit Types (s : state World) (ro : ResourceOptions World Error).
Implicit Types (optionsHandler : OptionsHandlerFn World Error).
Implicit Types (requestHandler : RequestHandlerFn World Error Response).

(** X9. What the request handler receives is the result of the options
    handler, field for field, on the state the options handler left: the
    options handler has the last word on every field, the method
    included. *)
Theorem verb_hands_over_handler_result optionsHandler requestHandler ro m endpoint
    options s r s1 r' s2 :
  defaultOptionsHandler decamelizeKeys stringify JSON_stringify ro
    (Some (with_method options (Js.toUpperCase m))) s = (Resolved r, s1) ->
  optionsHandler ro r s1 = (Resolved r', s2) ->
  verb decamelizeKeys stringify JSON_stringify optionsHandler requestHandler ro m
    endpoint options s
  = requestHandler endpoint r' s2.
Proof.
  intros Hbuilt Hoh. unfold verb, bind.
  by rewrite Hbuilt, Hoh, copy_options_same.
Qed.

(** The builder leaves every header object allocated before the call as
    it was. *)
Lemma defaultOptionsHandler_keeps_header_objects ro callOptions :
  keeps_header_objects
    (defaultOptionsHandler decamelizeKeys stringify JSON_stringify ro callOptions).
Proof.
  intros s l Hl. apply fresh_loc_not_allocated in Hl.
  rewrite defaultOptionsHandler_run.
  destruct (ro_authHeaders ro) as [|[key fn] rest];
    [|destruct (fn (world s)) as [[v|e] w]];
    cbn [snd heap]; by rewrite lookup_insert_ne.
Qed.

(** The builder only adds to the allocated header objects. *)
Lemma defaultOptionsHandler_allocated ro callOptions s l :
  l ∈ dom (heap s) ->
  l ∈ dom (heap (snd (defaultOptionsHandler decamelizeKeys stringify JSON_stringify
                        ro callOptions s))).
Proof.
  intros Hl. apply elem_of_dom.
  rewrite (defaultOptionsHandler_keeps_header_objects ro callOptions s l Hl).
  by apply elem_of_dom.
Qed.

(** X15. When neither handler changes or drops a header object that
    exists before it runs, a verb of the requester leaves every header
    object that exists before the call as it was, the preconfigured
    headers among them, whether the call resolves or rejects. *)
Theorem verb_keeps_header_objects optionsHandler requestHandler ro m endpoint options :
  (forall r, keeps_header_objects (optionsHandler ro r)) ->
  (forall r, keeps_header_objects (requestHandler endpoint r)) ->
  keeps_header_objects
    (verb decamelizeKeys stringify JSON_stringify optionsHandler requestHandler ro m
       endpoint options).
Proof.
  intros Hoh Hrh s l Hl. unfold verb, bind.
  pose proof (defaultOptionsHandler_keeps_header_objects ro
                (Some (with_method options (Js.toUpperCase m))) s l Hl) as Hb.
  pose proof (defaultOptionsHandler_allocated ro
                (Some (with_method options (Js.toUpperCase m))) s l Hl) as Hd.
  destruct (defaultOptionsHandler _ _ _ ro _ s) as [[r|e] s1]; cbn [snd] in *;
    [|exact Hb].
  pose proof (Hoh r s1 l Hd) as Ho.
  assert (Hd2 : l ∈ dom (heap (snd (optionsHandler ro r s1)))).
  { apply elem_of_dom. rewrite Ho. by apply elem_of_dom. }
  destruct (optionsHandler ro r s1) as [[r'|e] s2]; cbn [snd] in *;
    [|by rewrite Ho].
  rewrite (Hrh (copy_options r') s2 l Hd2). by rewrite Ho.
Qed.

End requester_more.

(** ** Preset constructors *)

Section preset_more.

Context {Property Argument Instance Plain : Type}.
Variable own_properties : Argument -> gmap string Property.

Implicit Types (resources : gmap string (resource Property Argument Instance Plain)).
Implicit Types (C : Constructor Property Argument Instance).
Implicit Types (presetConfig : gmap string Property).

(** Spreading nothing over an object gives the object. *)
Lemma object_spread_empty_r (a : gmap string Property) : object_spread a ∅ = a.
Proof. unfold object_spread. by rewrite (right_id_L ∅ (∪)), (left_id_L ∅ (∪)). Qed.

Lemma object_spread_empty_l (b : gmap string Property) : object_spread ∅ b = b.
Proof. unfold object_spread. by rewrite !(right_id_L ∅ (∪)). Qed.

(** The mapping that is returned holds no function that cannot be
    constructed either. *)
Lemma stored_constructible resources presetConfig :
  constructible resources ->
  constructible (stored own_properties presetConfig <$> resources).
Proof.
  intros Hc key f. rewrite lookup_fmap.
  destruct (resources !! key) as [[C|g|v]|] eqn:Hkey; cbn; try done.
  by destruct (Hc key g).
Qed.

(** X10. When [presetResourceArguments] returns, the mapping it returns
    has the keys of the input mapping, no more and no less; it throws only
    when a value is a function that cannot be constructed. *)
Theorem presetResourceArguments_keys resources customConfig :
  match presetResourceArguments own_properties resources customConfig with
  | Returned result => dom result = dom resources
  | Thrown e =>
      e = TypeError /\ exists key f, resources !! key = Some (NotConstructible f)
  end.
Proof.
  pose proof (presetResourceArguments_cases own_properties resources customConfig) as H.
  destruct (presetResourceArguments _ resources _) as [result|e]; [|exact H].
  destruct H as [_ ->]. apply dom_fmap_L.
Qed.

(** X11. A preset constructor called with no argument, or with
    [undefined] for the configuration, calls the original constructor
    with the preset configuration itself as first argument. *)
Theorem presetResourceArguments_without_config resources presetConfig key C :
  resources !! key = Some (Function C) ->
  match presetResourceArguments own_properties resources (Some presetConfig) with
  | Returned result =>
      exists C',
        result !! key = Some (Function C')
        /\ C' [] = C [Config presetConfig]
        /\ forall rest, C' (Undefined :: rest) = C (Config presetConfig :: rest)
  | Thrown e =>
      e = TypeError /\ exists other f, resources !! other = Some (NotConstructible f)
  end.
Proof.
  intros Hkey.
  pose proof (presetResourceArguments_cases own_properties resources
                (Some presetConfig)) as H.
  destruct (presetResourceArguments _ resources _) as [result|e]; [|exact H].
  destruct H as [_ ->]. eexists. split.
  - rewrite lookup_fmap, Hkey. reflexivity.
  - unfold createPresetConstructor. cbn [hd tl properties default from_option id].
    rewrite object_spread_empty_r. by split.
Qed.

(** X12. Presetting twice: the constructor obtained by presetting with
    [first] and then with [second] calls the original constructor with
    [{ ...first, ...second, ...config }]; a property comes from [config]
    if it has it, else from [second], else from [first]. *)
Theorem presetResourceArguments_twice resources (first second : gmap string Property) key C :
  resources !! key = Some (Function C) ->
  match presetResourceArguments own_properties resources (Some first) with
  | Returned once =>
      exists twice C',
        presetResourceArguments own_properties once (Some second) = Returned twice
        /\ twice !! key = Some (Function C')
        /\ (forall config rest,
              C' (config :: rest)
              = C (Config (object_spread first
                             (object_spread second (properties own_properties config)))
                     :: rest))
        /\ (forall config name,
              object_spread first
                (object_spread second (properties own_properties config)) !! name
              = match properties own_properties config !! name with
                | Some x => Some x
                | None => match second !! name with
                          | Some x => Some x
                          | None => first !! name
                          end
                end)
  | Thrown e =>
      e = TypeError /\ exists other f, resources !! other = Some (NotConstructible f)
  end.
Proof.
  intros Hkey.
  pose proof (presetResourceArguments_cases own_properties resources (Some first)) as H.
  destruct (presetResourceArguments _ resources _) as [once|e]; [|exact H].
  destruct H as [Hc ->].
  rewrite (presetResourceArguments_returns own_properties _ (Some second)
             (stored_constructible resources _ Hc)).
  do 2 eexists. split; [reflexivity|]. split.
  - rewrite !lookup_fmap, Hkey. reflexivity.
  - split; [reflexivity|]. intros config name.
    rewrite !object_spread_lookup.
    by destruct (properties own_properties config !! name).
Qed.

(** X13. With the default preset [{}], a preset constructor hands a
    configuration object on as it is, and replaces a missing
    configuration by the empty object. *)
Theorem presetResourceArguments_default_config resources key C :
  resources !! key = Some (Function C) ->
  match presetResourceArguments own_properties resources None with
  | Returned result =>
      exists C',
        result !! key = Some (Function C')
        /\ (forall config rest, C' (Config config :: rest) = C (Config config :: rest))
        /\ (forall rest, C' (Undefined :: rest) = C (Config ∅ :: rest))
        /\ C' [] = C [Config ∅]
  | Thrown e =>
      e = TypeError /\ exists other f, resources !! other = Some (NotConstructible f)
  end.
Proof.
  intros Hkey.
  pose proof (presetResourceArguments_cases own_properties resources None) as H.
  destruct (presetResourceArguments _ resources _) as [result|e]; [|exact H].
  destruct H as [_ ->]. eexists. split.
  - rewrite lookup_fmap, Hkey. reflexivity.
  - unfold createPresetConstructor. cbn [hd tl properties default from_option id].
    repeat split; intros; by rewrite object_spread_empty_l.
Qed.

(** X14. A mapping that holds no function is returned as an equal
    mapping. *)
Theorem presetResourceArguments_no_function resources customConfig :
  (forall key x, resources !! key = Some x -> exists v, x = PlainValue v) ->
  presetResourceArguments own_properties resources customConfig = Returned resources.
Proof.
  intros Hplain. rewrite presetResourceArguments_returns.
  - f_equal. apply map_eq. intros key. rewrite lookup_fmap.
    destruct (resources !! key) as [x|] eqn:Hkey; [|done].
    by destruct (Hplain key x Hkey) as [v ->].
  - intros key f Hkey. by destruct (Hplain key _ Hkey).
Qed.

End preset_more.

(** ** The further properties at sample inputs *)

Section more_samples.
Import Fixture Scenario.

(** X1 at the preconfigured header [a]. *)
Lemma defaultOptionsHandler_keeps_other_headers_sample :
  match Modelled.defaultOptionsHandler two_auth_headers
          (Some (with_body (ObjectBody user_name))) initial with
  | (Resolved r, s') => headers_of s' r !! "a" = Some "1"
  | (Rejected e, _) => auth_rejected two_auth_headers initial e
  end.
Proof.
  apply (defaultOptionsHandler_keeps_other_headers
           Xcase.decamelizeKeys Qs.stringify Json.stringify
           two_auth_headers (Some (with_body (ObjectBody user_name))) initial "a").
  - discriminate.
  - discriminate.
  - vm_compute. discriminate.
Defined.

(** X2 at [sudo = 0] with preconfigured headers [{ a: '1', sudo: 'root' }]. *)
Lemma defaultOptionsHandler_falsy_sudo_sample :
  match Modelled.defaultOptionsHandler no_auth_headers
          (Some (with_sudo (SudoNumber (Js.Int 0 I)))) sudo_initial with
  | (Resolved r, s') => headers_of s' r !! "sudo" = Some "root"
  | (Rejected e, _) => auth_rejected no_auth_headers sudo_initial e
  end.
Proof.
  apply (defaultOptionsHandler_falsy_sudo
           Xcase.decamelizeKeys Qs.stringify Json.stringify
           no_auth_headers (with_sudo (SudoNumber (Js.Int 0 I))) sudo_initial).
  - intros x [= <-]. reflexivity.
  - vm_compute. discriminate.
Defined.

(** X3 at call options that hold a sudo value only. *)
Lemma defaultOptionsHandler_no_body_sample :
  match Modelled.defaultOptionsHandler two_auth_headers
          (Some (with_sudo (SudoNumber (Js.Int 42 I)))) initial with
  | (Resolved r, s') =>
      body r = None
      /\ (first_auth_key two_auth_headers <> Some "content-type" ->
          headers_of s' r !! "content-type" = None)
  | (Rejected e, _) => auth_rejected two_auth_headers initial e
  end.
Proof.
  apply (defaultOptionsHandler_no_body
           Xcase.decamelizeKeys Qs.stringify Json.stringify
           two_auth_headers (with_sudo (SudoNumber (Js.Int 42 I))) initial).
  reflexivity.
Defined.

(** X5 at [authHeaders = {}]. *)
Lemma defaultOptionsHandler_no_auth_headers_sample :
  exists r s',
    Modelled.defaultOptionsHandler no_auth_headers
      (Some (with_body (FormBody form))) initial = (Resolved r, s')
    /\ world s' = [].
Proof.
  apply (defaultOptionsHandler_no_auth_headers
           Xcase.decamelizeKeys Qs.stringify Json.stringify
           no_auth_headers (Some (with_body (FormBody form))) initial).
  reflexivity.
Defined.

(** X6 with an auth function that resolves with 0, then with 1. *)
Lemma defaultOptionsHandler_twice_sample :
  exists r1 s1 r2 s2,
    Modelled.defaultOptionsHandler counter_auth None initial = (Resolved r1, s1)
    /\ Modelled.defaultOptionsHandler counter_auth
         (Some (with_sudo (SudoNumber (Js.Int 42 I)))) s1 = (Resolved r2, s2)
    /\ headers r1 <> headers r2
    /\ headers_of s2 r1 = headers_of s1 r1
    /\ headers_of s1 r1 !! "Authorization" = Some "0"
    /\ headers_of s2 r2 !! "Authorization" = Some "1"
    /\ heap s2 !! 1%positive = Some preconfigured
    /\ world s2 = [Invoked "counter"; Invoked "counter"].
Proof.
  apply (defaultOptionsHandler_twice
           Xcase.decamelizeKeys Qs.stringify Json.stringify
           1%positive "Authorization" counter [] "https://x" None
           None (Some (with_sudo (SudoNumber (Js.Int 42 I)))) initial preconfigured
           "0" [Invoked "counter"] "1" [Invoked "counter"; Invoked "counter"]).
  - reflexivity.
  - vm_compute. reflexivity.
  - vm_compute. reflexivity.
Defined.

(** X9 with an options handler that replaces the method by HEAD. *)
Lemma verb_hands_over_handler_result_sample :
  exists r s1,
    Modelled.defaultOptionsHandler no_auth_headers
      (Some (with_method None "GET")) initial = (Resolved r, s1)
    /\ verb Xcase.decamelizeKeys Qs.stringify Json.stringify
         headOptionsHandler recordingRequestHandler no_auth_headers "get"
         "widgets" None initial
       = recordingRequestHandler "widgets" (set_method r "HEAD") s1.
Proof.
  do 2 eexists. split; [vm_compute; reflexivity|].
  eapply (verb_hands_over_handler_result
            Xcase.decamelizeKeys Qs.stringify Json.stringify
            headOptionsHandler recordingRequestHandler no_auth_headers "get"
            "widgets" None initial).
  - vm_compute. reflexivity.
  - reflexivity.
Defined.

(** X15 with the identity options handler and the recording request
    handler. *)
Lemma verb_keeps_header_objects_sample :
  keeps_header_objects
    (verb Xcase.decamelizeKeys Qs.stringify Json.stringify
       identityOptionsHandler recordingRequestHandler two_auth_headers "post"
       "widgets" (Some (with_body (ObjectBody user_name)))).
Proof.
  apply (verb_keeps_header_objects
           Xcase.decamelizeKeys Qs.stringify Json.stringify
           identityOptionsHandler recordingRequestHandler two_auth_headers "post"
           "widgets" (Some (with_body (ObjectBody user_name)))).
  - intros r s l Hl. reflexivity.
  - intros r s l Hl. reflexivity.
Defined.

(** X11 at [presetResourceArguments({ A: ctorA, version: '1.0' }, { base: 1 })]. *)
Lemma presetResourceArguments_without_config_sample :
  match presetResourceArguments no_properties resources (Some {[ "base" := 1%Z ]}) with
  | Returned result =>
      exists C',
        result !! "A" = Some (Function C')
        /\ C' [] = ctorA [Config {[ "base" := 1%Z ]}]
        /\ forall rest, C' (Undefined :: rest) = ctorA (Config {[ "base" := 1%Z ]} :: rest)
  | Thrown e =>
      e = TypeError /\ exists other f, resources !! other = Some (NotConstructible f)
  end.
Proof.
  apply (presetResourceArguments_without_config no_properties resources
           {[ "base" := 1%Z ]} "A" ctorA).
  reflexivity.
Defined.

(** X12 at the presets [{ base: 1 }] and then [{ base: 2 }]. *)
Lemma presetResourceArguments_twice_sample :
  match presetResourceArguments no_properties resources (Some {[ "base" := 1%Z ]}) with
  | Returned once =>
      exists twice C',
        presetResourceArguments no_properties once (Some {[ "base" := 2%Z ]})
        = Returned twice
        /\ twice !! "A" = Some (Function C')
        /\ (forall config rest,
              C' (config :: rest)
              = ctorA (Config (object_spread {[ "base" := 1%Z ]}
                                 (object_spread {[ "base" := 2%Z ]}
                                    (properties no_properties config)))
                         :: rest))
        /\ (forall config name,
              object_spread {[ "base" := 1%Z ]}
                (object_spread {[ "base" := 2%Z ]} (properties no_properties config))
                !! name
              = match properties no_properties config !! name with
                | Some x => Some x
                | None => match ({[ "base" := 2%Z ]} : gmap string Z) !! name with
                          | Some x => Some x
                          | None => ({[ "base" := 1%Z ]} : gmap string Z) !! name
                          end
                end)
  | Thrown e =>
      e = TypeError /\ exists other f, resources !! other = Some (NotConstructible f)
  end.
Proof.
  apply (presetResourceArguments_twice no_properties resources
           {[ "base" := 1%Z ]} {[ "base" := 2%Z ]} "A" ctorA).
  reflexivity.
Defined.

(** X13 at [presetResourceArguments({ A: ctorA, version: '1.0' })]. *)
Lemma presetResourceArguments_default_config_sample :
  match presetResourceArguments no_properties resources None with
  | Returned result =>
      exists C',
        result !! "A" = Some (Function C')
        /\ (forall config rest, C' (Config config :: rest) = ctorA (Config config :: rest))
        /\ (forall rest, C' (Undefined :: rest) = ctorA (Config ∅ :: rest))
        /\ C' [] = ctorA [Config ∅]
  | Thrown e =>
      e = TypeError /\ exists other f, resources !! other = Some (NotConstructible f)
  end.
Proof.
  apply (presetResourceArguments_default_config no_properties resources "A" ctorA).
  reflexivity.
Defined.

(** X14 at [{ version: '1.0', name: 'api' }]. *)
Lemma presetResourceArguments_no_function_sample :
  presetResourceArguments no_properties plain_resources (Some {[ "base" := 1%Z ]})
  = Returned plain_resources.
Proof.
  apply (presetResourceArguments_no_function no_properties plain_resources
           (Some {[ "base" := 1%Z ]})).
  intros key x Hkey. unfold plain_resources in Hkey.
  apply lookup_insert_Some in Hkey as [[_ <-]|[_ Hkey]]; [by eexists|].
  apply lookup_singleton_Some in Hkey as [_ <-]. by eexists.
Defined.

End more_samples.
